(** * vscode-terraform: language-client supervisor and Terraform Cloud tree providers

    A shallow embedding of the two TypeScript sources that carry the
    extension's logic:

    - [src/extension.ts]: the [LanguageClientOptions] handlers
      ([initializationFailedHandler], [errorHandler.closed]) together with
      the module-level variables [initializationError] and [crashCount];
    - [src/providers/terraformCloudProvider.ts]: [TerraformCloudFeature],
      [WorkspaceTreeDataProvider] and [RunTreeDataProvider].

    Module-level and instance state is threaded explicitly; every call into
    the editor host or the remote API is recorded in a chronological trace. *)

From stdpp Require Import gmap strings list.
From Stdlib Require Import NArith Ascii Lia.

Open Scope string_scope.
Open Scope list_scope.

(* ===================================================================== *)
(** * src/extension.ts                                                   *)
(* ===================================================================== *)

Module Extension.

(** [CloseAction] of vscode-languageclient. *)
Inductive CloseAction := DoNotRestart | Restart.

(** [CloseHandlerResult]: [message] is an optional property; the restart
    branch of [closed] leaves it out. *)
Record CloseHandlerResult := {
  message : option string;
  action : CloseAction;
}.

(** [ResponseError<InitializeError>]: the structured handshake failure. *)
Record ResponseError := {
  code : Z;
  error_message : string;
  retry : bool;
}.

(** [MessageOptions] and [MessageItem] of the editor API. *)
Record MessageOptions := { detail : string; modal : bool }.
Record MessageItem := { title : string }.

(** What the handlers do to the outside world, in the order they do it. *)
Inductive Effect :=
| AppendLine (line : string)                      (* outputChannel.appendLine *)
| OutputChannelShow                               (* outputChannel.show *)
| SendTelemetryException (error : ResponseError)  (* reporter.sendTelemetryException *)
| ShowErrorMessage (msg : string) (options : MessageOptions)
                   (items : list MessageItem)     (* vscode.window.showErrorMessage *)
| ExecuteCommand (command arg : string).          (* vscode.commands.executeCommand *)

(** The module-level [let] variables, plus the trace. *)
Record Globals := {
  initializationError : option ResponseError;
  crashCount : N;
  effects : list Effect;
}.

(** [let initializationError = undefined; let crashCount = 0;] *)
Definition initial : Globals :=
  {| initializationError := None; crashCount := 0; effects := [] |}.

Definition emit (e : Effect) (g : Globals) : Globals :=
  {| initializationError := initializationError g;
     crashCount := crashCount g;
     effects := effects g ++ [e] |}.

Definition set_initializationError (error : ResponseError) (g : Globals) : Globals :=
  {| initializationError := Some error;
     crashCount := crashCount g;
     effects := effects g |}.

Definition set_crashCount (n : N) (g : Globals) : Globals :=
  {| initializationError := initializationError g;
     crashCount := n;
     effects := effects g |}.

(** [crashCount + 1] on a JavaScript number.  The counter only ever holds
    a non-negative integer; the sum is exact below 2^53 and at 2^53 the
    double addition rounds back to 2^53 (ties to even). *)
Definition js_add1 (n : N) : N :=
  if (n <? 2 ^ 53)%N then (n + 1)%N else n.

Definition generic_failure : string :=
  "Failure to start terraform-ls. Please check your configuration settings and reload this window".

(** The double-quote character, which the second message contains. *)
Definition dq : string := String "034"%char EmptyString.

Definition serve_failure : string :=
  "You need at least a " +:+ dq +:+ "serve" +:+ dq +:+
  " argument in the `terraform.languageServer.args` setting. Please check your configuration settings and reload this window".

Definition troubleshooting_url : string :=
  "https://github.com/hashicorp/vscode-terraform#troubleshooting".

(** [initializationFailedHandler].  [serverArgs] is what
    [config('terraform').get('languageServer.args', [])] yields. *)
Definition initializationFailedHandler
    (error : ResponseError) (serverArgs : list string) (g : Globals)
  : bool * Globals :=
  let g := set_initializationError error g in
  let g := emit (SendTelemetryException error) g in
  let msg :=
    match serverArgs with
    | arg0 :: _ => if String.eqb arg0 "serve" then generic_failure else serve_failure
    | [] => serve_failure                (* undefined !== 'serve' *)
    end in
  let g := emit (AppendLine msg) g in
  let g := emit (ShowErrorMessage msg
                   {| detail := ""; modal := false |}
                   [ {| title := "Open Settings" |};
                     {| title := "Open Logs" |};
                     {| title := "More Info" |} ]) g in
  (false, g).

(** The [.then] continuation of the notification: [choice] is the item the
    user picked, [None] when the notification was dismissed. *)
Definition onChoice (choice : option MessageItem) (g : Globals) : Globals :=
  match choice with
  | None => g
  | Some c =>
      if String.eqb (title c) "Open Logs" then emit OutputChannelShow g
      else if String.eqb (title c) "Open Settings" then
        emit (ExecuteCommand "workbench.action.openSettings" "@ext:hashicorp.terraform") g
      else if String.eqb (title c) "More Info" then
        emit (ExecuteCommand "vscode.open" troubleshooting_url) g
      else g
  end.

(** [errorHandler.closed]. *)
Definition closed (g : Globals) : CloseHandlerResult * Globals :=
  match initializationError g with
  | Some _ =>
      let g := emit (AppendLine "Initialization error handled by handler") g in
      ({| message := Some ""; action := DoNotRestart |}, g)
  | None =>
      let g := set_crashCount (js_add1 (crashCount g)) g in
      if (crashCount g <=? 1)%N then
        let g := emit (AppendLine "Server has failed. Restarting") g in
        ({| message := None; action := Restart |}, g)
      else
        let g := emit (AppendLine generic_failure) g in
        ({| message := Some generic_failure; action := DoNotRestart |}, g)
  end.

(** The language client drives the handlers; a session is the sequence of
    handler invocations it makes.  [errorHandler.error] reads and writes
    neither module variable (it formats a message and answers
    [ErrorAction.Shutdown]), so it is not among the events. *)
Inductive Event :=
| Closed
| InitializationFailed (error : ResponseError) (serverArgs : list string).

Inductive Response :=
| CloseResponse (r : CloseHandlerResult)
| InitResponse (showDefaultDialog : bool).

Definition step (ev : Event) (g : Globals) : Response * Globals :=
  match ev with
  | Closed => let '(r, g') := closed g in (CloseResponse r, g')
  | InitializationFailed error serverArgs =>
      let '(b, g') := initializationFailedHandler error serverArgs g in
      (InitResponse b, g')
  end.

Fixpoint run (evs : list Event) (g : Globals) : list Response * Globals :=
  match evs with
  | [] => ([], g)
  | ev :: evs' =>
      let '(r, g') := step ev g in
      let '(rs, g'') := run evs' g' in
      (r :: rs, g'')
  end.

(** The three answers [closed] can give. *)
Definition restart_once : CloseHandlerResult :=
  {| message := None; action := Restart |}.
Definition stop_generic : CloseHandlerResult :=
  {| message := Some generic_failure; action := DoNotRestart |}.
Definition stop_silent : CloseHandlerResult :=
  {| message := Some ""; action := DoNotRestart |}.

End Extension.

(* ===================================================================== *)
(** * src/providers/terraformCloudProvider.ts                            *)
(* ===================================================================== *)

Module TerraformCloudProvider.

(** ** Host and remote data *)

(** [vscode.ExtensionContext]: the two [Memento] stores the file uses.
    Only strings are ever stored in them. *)
Record ExtensionContext := {
  workspaceState : gmap string string;
  globalState : gmap string string;
}.

(** [Memento.get(key, defaultValue)]. *)
Definition memento_get (m : gmap string string) (key defaultValue : string) : string :=
  default defaultValue (m !! key).

(** [Memento.update(key, value)]: the in-memory value changes at once. *)
Definition memento_update (m : gmap string string) (key value : string)
  : gmap string string :=
  <[key := value]> m.

Definition organization_key : string := "terraform.cloud.organization".

(** One record of a list response: [element.id], [element.attributes.name],
    [element.attributes.message]. *)
Record Attributes := { attr_name : string; attr_message : string }.
Record ApiRecord := { rec_id : string; attributes : Attributes }.

(** The argument object of a client call: [params] always, [queries] only
    where the call site writes it. *)
Record RequestArgs := {
  params : list (string * string);
  queries : option (list (string * string));
}.

Inductive Request :=
| listOrganizations
| listProjects (args : RequestArgs)
| listWorkspaces (args : RequestArgs)
| listRuns (args : RequestArgs).

(** A JavaScript exception value. *)
Record JsError := { error_text : string }.

(** What awaiting a client call gives. *)
Inductive ApiResult :=
| Ok (data : list ApiRecord)
| Fail (error : JsError).

Record StatusBarItem := { text : string; visible : bool }.
Record QuickPickItem := { label : string; item_detail : option string }.

Record WorkspaceTreeItem := { ws_name : string; ws_id : string }.
Record RunTreeItem := { run_label : string; run_id : string; run_url : string }.

Inductive Effect :=
| ApiCall (req : Request)
| FireWorkspaces            (* WorkspaceTreeDataProvider.didChangeTreeData.fire() *)
| FireRuns                  (* RunTreeDataProvider.didChangeTreeData.fire() *)
| ShowInformationMessage (msg : string)
| ShowQuickPickStrings (items : list string)
| ShowQuickPickItems (items : list QuickPickItem)
| OpenExternal (url : string).

(** Everything the classes of the file can read or write.  [apiClient] is
    the imported client object of [../terraformCloud]: it is not part of
    this file, so it is taken as given; its answer may depend on all that
    has happened before the call. *)
Record World := {
  apiClient : list Effect -> Request -> ApiResult;
  ctx : ExtensionContext;
  organizationStatusBar : StatusBarItem;   (* TerraformCloudFeature *)
  projectID : string;                      (* WorkspaceTreeDataProvider *)
  workspace : option WorkspaceTreeItem;    (* RunTreeDataProvider *)
  trace : list Effect;
}.

(** ** Control flow: exceptions, promises, provider results *)

Inductive Completion (A : Type) :=
| Normal (a : A)
| Throw (e : JsError).
Arguments Normal {A} a.
Arguments Throw {A} e.

Inductive Promise (A : Type) :=
| Resolved (a : A)
| Rejected (e : JsError).
Arguments Resolved {A} a.
Arguments Rejected {A} e.

(** [vscode.ProviderResult<T>]: a plain value or a thenable. *)
Inductive ProviderResult (A : Type) :=
| Immediate (a : A)
| Thenable (p : Promise A).
Arguments Immediate {A} a.
Arguments Thenable {A} p.

Definition M (A : Type) : Type := World -> Completion A * World.

#[export] Instance M_ret : MRet M := fun A a w => (Normal a, w).
#[export] Instance M_bind : MBind M := fun A B k m w =>
  match m w with
  | (Normal a, w') => k a w'
  | (Throw e, w') => (Throw e, w')
  end.

Definition get : M World := fun w => (Normal w, w).
Definition modify (f : World -> World) : M unit := fun w => (Normal tt, f w).

(** Calling an [async] function never throws: the body runs and its
    completion is wrapped in the promise handed back.  The body is run to
    its end at the call; the scheduler interleaves nothing between. *)
Definition async {A} (body : M A) : M (Promise A) := fun w =>
  match body w with
  | (Normal a, w') => (Normal (Resolved a), w')
  | (Throw e, w') => (Normal (Rejected e), w')
  end.

(** [try { body } catch (error) { handler }]. *)
Definition try_catch {A} (body : M A) (handler : JsError -> M A) : M A := fun w =>
  match body w with
  | (Normal a, w') => (Normal a, w')
  | (Throw e, w') => handler e w'
  end.

Definition with_trace (f : list Effect -> list Effect) (w : World) : World :=
  {| apiClient := apiClient w; ctx := ctx w;
     organizationStatusBar := organizationStatusBar w;
     projectID := projectID w; workspace := workspace w;
     trace := f (trace w) |}.

Definition emit (e : Effect) : M unit := modify (with_trace (fun t => t ++ [e])).

(** [await apiClient.<endpoint>(args)] inside an async body: the call is
    logged, a rejection is thrown at the [await]. *)
Definition await_api (req : Request) : M (list ApiRecord) := fun w =>
  let answer := apiClient w (trace w) req in
  let w' := with_trace (fun t => t ++ [ApiCall req]) w in
  match answer with
  | Ok data => (Normal data, w')
  | Fail error => (Throw error, w')
  end.

Definition set_ctx (c : ExtensionContext) (w : World) : World :=
  {| apiClient := apiClient w; ctx := c;
     organizationStatusBar := organizationStatusBar w;
     projectID := projectID w; workspace := workspace w; trace := trace w |}.

Definition set_statusBar (s : StatusBarItem) (w : World) : World :=
  {| apiClient := apiClient w; ctx := ctx w;
     organizationStatusBar := s;
     projectID := projectID w; workspace := workspace w; trace := trace w |}.

Definition set_projectID (p : string) (w : World) : World :=
  {| apiClient := apiClient w; ctx := ctx w;
     organizationStatusBar := organizationStatusBar w;
     projectID := p; workspace := workspace w; trace := trace w |}.

Definition set_workspace (ws : option WorkspaceTreeItem) (w : World) : World :=
  {| apiClient := apiClient w; ctx := ctx w;
     organizationStatusBar := organizationStatusBar w;
     projectID := projectID w; workspace := ws; trace := trace w |}.

(** [for (index ...) { items.push(f(data[index])) }] starting from [[]]. *)
Definition push_each {A B} (f : A -> B) (data : list A) : list B :=
  foldl (fun items element => items ++ [f element]) [] data.

(** [this.ctx.globalState.get('terraform.cloud.organization', '')]. *)
Definition globalState_organization : M string :=
  w ← get; mret (memento_get (globalState (ctx w)) organization_key "").

(** ** class RunTreeDataProvider *)

Module RunTreeDataProvider.

(** [refresh(workspace?)]: an item object is truthy, [undefined] is not. *)
Definition refresh (workspace : option WorkspaceTreeItem) : M unit :=
  match workspace with
  | Some item => modify (set_workspace (Some item))
  | None => mret tt
  end;;
  emit FireRuns.

(** The template literal of [getRuns]. *)
Definition derive_url (organization : string) (workspace : WorkspaceTreeItem)
    (element : ApiRecord) : string :=
  "https://app.staging.terraform.io/app/" +:+ organization +:+
  "/workspaces/" +:+ ws_name workspace +:+ "/runs/" +:+ rec_id element.

Definition getRuns (workspace : WorkspaceTreeItem) : M (Promise (list RunTreeItem)) :=
  async (
    organization ← globalState_organization;
    projects ← await_api
      (listRuns {| params := [("workspace_id", ws_id workspace)]; queries := None |});
    mret (push_each
            (fun element =>
               {| run_label := attr_message (attributes element);
                  run_id := rec_id element;
                  run_url := derive_url organization workspace element |})
            projects)).

Definition getChildren : M (ProviderResult (list RunTreeItem)) :=
  w ← get;
  match workspace w with
  | None => mret (Immediate [])
  | Some item =>
      try_catch (p ← getRuns item; mret (Thenable p))
                (fun _ => mret (Immediate []))
  end.

(** Command [terraform.cloud.runs.refresh]. *)
Definition runs_refresh : M unit := refresh None.

(** Command [terraform.cloud.runs.openRunInBrowser]. *)
Definition openRunInBrowser (item : RunTreeItem) : M unit :=
  emit (OpenExternal (run_url item)).

End RunTreeDataProvider.

(** ** class WorkspaceTreeDataProvider *)

Module WorkspaceTreeDataProvider.

(** [refresh(projectID?)]: [this.projectID = projectID ?? ''], then fire. *)
Definition refresh (projectID : option string) : M unit :=
  modify (set_projectID (default "" projectID));;
  emit FireWorkspaces.

Definition getWorkspaces (organization : string)
  : M (Promise (list WorkspaceTreeItem)) :=
  async (
    w ← get;
    workspaces ←
      (if negb (String.eqb (projectID w) "") then
         await_api
           (listWorkspaces
              {| params := [("organization_name", organization)];
                 queries := Some [("filter[project][id]", projectID w)] |})
       else
         await_api
           (listWorkspaces
              {| params := [("organization_name", organization)];
                 queries := None |}));
    mret (push_each
            (fun element =>
               {| ws_name := attr_name (attributes element);
                  ws_id := rec_id element |})
            workspaces)).

Definition getChildren : M (ProviderResult (list WorkspaceTreeItem)) :=
  organization ← globalState_organization;
  if String.eqb organization "" then mret (Immediate [])
  else
    try_catch (p ← getWorkspaces organization; mret (Thenable p))
              (fun _ => mret (Immediate [])).

(** Command [terraform.cloud.workspaces.filterByProject]; [answer] is
    what the quick pick resolves to.  The command returns [[]] on the
    first exit and [undefined] on the others. *)
Definition filterByProject (answer : option QuickPickItem)
  : M (Promise (option (list QuickPickItem))) :=
  async (
    organization ← globalState_organization;
    if String.eqb organization "" then mret (Some [])
    else
      orgs ← await_api
        (listProjects {| params := [("organization_name", organization)];
                         queries := None |});
      let items :=
        push_each (fun element =>
                     {| label := attr_name (attributes element);
                        item_detail := Some (rec_id element) |}) orgs in
      emit (ShowQuickPickItems items);;
      match answer with
      | None => mret None
      | Some answer =>
          (* the template literal formats the item object itself *)
          emit (ShowInformationMessage "Chose [object Object] project");;
          refresh (item_detail answer);;
          RunTreeDataProvider.refresh None;;
          mret None
      end).

(** Command [terraform.cloud.workspaces.listAll]. *)
Definition listAll : M unit :=
  modify (set_projectID "");;
  refresh None;;
  RunTreeDataProvider.refresh None.

(** Command [terraform.cloud.workspaces.refresh]. *)
Definition workspaces_refresh (item : option WorkspaceTreeItem) : M unit :=
  w ← get;
  refresh (Some (projectID w));;
  RunTreeDataProvider.refresh item.

End WorkspaceTreeDataProvider.

(** ** class TerraformCloudFeature *)

Module TerraformCloudFeature.

(** The constructor, as far as it sets state: the status bar starts
    empty and hidden and is filled from [workspaceState]; both providers
    start with their field initialisers. *)
Definition constructor (api : list Effect -> Request -> ApiResult)
    (c : ExtensionContext) : World :=
  let org := memento_get (workspaceState c) organization_key "" in
  {| apiClient := api;
     ctx := c;
     organizationStatusBar :=
       if String.eqb org "" then {| text := ""; visible := false |}
       else {| text := org; visible := true |};
     projectID := "";
     workspace := None;
     trace := [] |}.

(** Command [terraform.cloud.organization.picker]; [answer] is what the
    quick pick resolves to. *)
Definition organization_picker (answer : option string) : M (Promise unit) :=
  async (
    orgs ← await_api listOrganizations;
    let items := push_each (fun element => attr_name (attributes element)) orgs in
    emit (ShowQuickPickStrings items);;
    match answer with
    | None => mret tt
    | Some answer =>
        modify (set_statusBar {| text := answer; visible := true |});;
        emit (ShowInformationMessage ("Chose " +:+ answer +:+ " organization"));;
        modify (fun w =>
          set_ctx {| workspaceState := workspaceState (ctx w);
                     globalState :=
                       memento_update (globalState (ctx w)) organization_key answer |}
                  w)
    end).

(** [workspaceView.onDidChangeSelection]: [event.selection[0]]. *)
Definition onDidChangeSelection (selection : list WorkspaceTreeItem) : M unit :=
  RunTreeDataProvider.refresh (head selection).

(** [workspaceView.onDidChangeVisibility]. *)
Definition onDidChangeVisibility (event_visible : bool) : M unit :=
  modify (fun w =>
    set_statusBar {| text := text (organizationStatusBar w);
                     visible := event_visible |} w).

End TerraformCloudFeature.

(** ** The requests the providers send, named for the statements below *)

Definition unfiltered (organization : string) : Request :=
  listWorkspaces {| params := [("organization_name", organization)];
                    queries := None |}.

Definition filtered (organization project : string) : Request :=
  listWorkspaces {| params := [("organization_name", organization)];
                    queries := Some [("filter[project][id]", project)] |}.

Definition runs_of (item : WorkspaceTreeItem) : Request :=
  listRuns {| params := [("workspace_id", ws_id item)]; queries := None |}.

(** The request [WorkspaceTreeDataProvider.getWorkspaces] sends from [w]. *)
Definition workspaces_request (organization : string) (w : World) : Request :=
  if negb (String.eqb (projectID w) "") then filtered organization (projectID w)
  else unfiltered organization.

End TerraformCloudProvider.

(* ===================================================================== *)
(** * src/extension.ts: deactivate                                       *)
(* ===================================================================== *)

Module Deactivation.

(** What [client.stop()] can reject with, as far as the [catch] clause of
    [deactivate] tells values apart: an [Error] object, a string, or any
    other value. *)
Inductive Thrown :=
| ErrorObject (message : string)    (* error instanceof Error *)
| StringValue (s : string)          (* typeof error === 'string' *)
| OtherValue.

(** How the promise of [client.stop()] settles. *)
Inductive StopOutcome :=
| StopResolved
| StopRejected (reason : Thrown).

Inductive Effect :=
| AppendLine (line : string)                  (* outputChannel.appendLine *)
| SendTelemetryException (message : string)   (* reporter.sendTelemetryException *)
| ShowErrorMessage (msg : string).            (* vscode.window.showErrorMessage *)

Inductive Completion :=
| Done
| Raise (reason : Thrown).

Definition M : Type := list Effect -> Completion * list Effect.

Definition skip : M := fun t => (Done, t).
Definition emit (e : Effect) : M := fun t => (Done, t ++ [e]).

Definition seq (m1 m2 : M) : M := fun t =>
  match m1 t with
  | (Done, t') => m2 t'
  | (Raise r, t') => (Raise r, t')
  end.

Definition try_catch (body : M) (handler : Thrown -> M) : M := fun t =>
  match body t with
  | (Done, t') => (Done, t')
  | (Raise r, t') => handler r t'
  end.

(** [await client?.stop()]: the module variable [client] is [undefined]
    until [activate] has created the language client; awaiting a rejected
    promise throws the rejection value. *)
Definition await_stop (client : option StopOutcome) : M := fun t =>
  match client with
  | None => (Done, t)
  | Some StopResolved => (Done, t)
  | Some (StopRejected r) => (Raise r, t)
  end.

(** The body of the async function [deactivate]; the function's promise is
    fulfilled on [Done] and rejected on [Raise]. *)
Definition deactivate (client : option StopOutcome) : M :=
  try_catch (await_stop client)
    (fun error =>
       match error with
       | ErrorObject message =>
           seq (emit (AppendLine message))
               (seq (emit (SendTelemetryException message))
                    (emit (ShowErrorMessage message)))
       | StringValue s =>
           (* new Error(error) carries the string as its message *)
           seq (emit (AppendLine s))
               (seq (emit (SendTelemetryException s))
                    (emit (ShowErrorMessage s)))
       | OtherValue => skip
       end).

(** The text [deactivate] has to report for a given way of stopping. *)
Definition reported_text (client : option StopOutcome) : option string :=
  match client with
  | Some (StopRejected (ErrorObject message)) => Some message
  | Some (StopRejected (StringValue s)) => Some s
  | _ => None
  end.

End Deactivation.

(* ===================================================================== *)
(** * Vocabulary for sessions of handler calls                           *)
(* ===================================================================== *)

Module Session.
Import Extension.

Definition is_restart (r : Response) : bool :=
  match r with
  | CloseResponse {| action := Restart |} => true
  | _ => false
  end.

Definition is_log (e : Effect) : bool :=
  match e with
  | AppendLine _ => true
  | _ => false
  end.

(** A state in which [closed] would still restart. *)
Definition fresh (g : Globals) : bool :=
  (crashCount g =? 0)%N &&
  match initializationError g with None => true | Some _ => false end.

(** The error of the most recent initialization failure of [evs], or
    [current] when there is none. *)
Fixpoint last_error (evs : list Event) (current : option ResponseError)
  : option ResponseError :=
  match evs with
  | [] => current
  | Closed :: evs' => last_error evs' current
  | InitializationFailed error _ :: evs' => last_error evs' (Some error)
  end.

(** The number of close events that come before the first initialization
    failure. *)
Fixpoint closes_before_failure (evs : list Event) : nat :=
  match evs with
  | Closed :: evs' => S (closes_before_failure evs')
  | _ => 0
  end.

Definition failure (p : ResponseError * list string) : Event :=
  InitializationFailed p.1 p.2.

End Session.

(* ===================================================================== *)
(** * Vocabulary for the provider statements                             *)
(* ===================================================================== *)

Module Views.
Import TerraformCloudProvider.

Definition is_call (e : Effect) : bool :=
  match e with
  | ApiCall _ => true
  | _ => false
  end.

Definition is_fire (e : Effect) : bool :=
  match e with
  | FireWorkspaces | FireRuns => true
  | _ => false
  end.

(** The quick pick item [filterByProject] builds for a project record. *)
Definition project_item (element : ApiRecord) : QuickPickItem :=
  {| label := attr_name (attributes element);
     item_detail := Some (rec_id element) |}.

Definition workspace_item (element : ApiRecord) : WorkspaceTreeItem :=
  {| ws_name := attr_name (attributes element); ws_id := rec_id element |}.

Definition projects_of (organization : string) : Request :=
  listProjects {| params := [("organization_name", organization)];
                  queries := None |}.

End Views.

(* ===================================================================== *)
(** * The close and initialization-failure handlers                      *)
(* ===================================================================== *)

Section Supervisor.
Import Extension.

Lemma js_add1_after_crash (n : N) : (1 <= n)%N -> (2 <= js_add1 n)%N.
Proof.
  intros Hn. unfold js_add1.
  change (2 ^ 53)%N with 9007199254740992%N.
  destruct (N.ltb_spec n 9007199254740992); lia.
Qed.

Lemma closed_first : closed initial = (restart_once, emit (AppendLine "Server has failed. Restarting") (set_crashCount 1 initial)).
Proof. reflexivity. Qed.

(** Once a crash has been counted and no initialization error is stored,
    [closed] gives up, and stays in that situation. *)
Lemma closed_again (g : Globals) :
  initializationError g = None -> (1 <= crashCount g)%N ->
  fst (closed g) = stop_generic /\
  initializationError (snd (closed g)) = None /\
  (1 <= crashCount (snd (closed g)))%N.
Proof.
  intros Hi Hc. unfold closed. rewrite Hi. cbn [set_crashCount crashCount].
  pose proof (js_add1_after_crash _ Hc) as H2.
  destruct (N.leb_spec (js_add1 (crashCount g)) 1) as [Hle | Hgt]; [lia |].
  cbn. repeat split; [exact Hi | lia].
Qed.

Lemma run_closed_again (n : nat) : forall g : Globals,
  initializationError g = None -> (1 <= crashCount g)%N ->
  fst (run (repeat Closed n) g) = repeat (CloseResponse stop_generic) n.
Proof.
  induction n as [| n IH]; intros g Hi Hc; [reflexivity |].
  destruct (closed_again g Hi Hc) as (Hr & Hi' & Hc').
  specialize (IH (snd (closed g)) Hi' Hc').
  cbn [repeat run step].
  destruct (closed g) as [r g'] eqn:Hcl. cbn [fst snd] in *.
  destruct (run (repeat Closed n) g') as [rs g''] eqn:Hrun. cbn [fst] in *.
  now subst.
Qed.

(** C1. Starting from the initial module state and with no initialization
    error ever recorded, a sequence of close events is answered with
    [Restart] exactly once, on the first close, which also raises the crash
    counter to 1; every later close is answered with [DoNotRestart] and the
    generic failure message. *)
Theorem C1_restart_once_then_stop (n : nat) :
  fst (closed initial) = restart_once /\
  crashCount (snd (closed initial)) = 1%N /\
  fst (run (repeat Closed (S n)) initial)
  = CloseResponse restart_once :: repeat (CloseResponse stop_generic) n.
Proof.
  split; [reflexivity |]. split; [reflexivity |].
  cbn [repeat run step]. rewrite closed_first.
  pose proof (run_closed_again n
    (emit (AppendLine "Server has failed. Restarting") (set_crashCount 1 initial))
    eq_refl) as H.
  destruct (run (repeat Closed n) _) as [rs g'']. cbn [fst] in *.
  rewrite H; [reflexivity | cbn; lia].
Qed.

Lemma step_keeps_error (ev : Event) (g : Globals) :
  is_Some (initializationError g) -> is_Some (initializationError (snd (step ev g))).
Proof.
  intros [e He]. destruct ev as [| error serverArgs].
  - unfold step, closed. rewrite He. cbn. rewrite He. eauto.
  - cbn. eauto.
Qed.

Lemma closed_with_error (g : Globals) :
  is_Some (initializationError g) ->
  closed g = (stop_silent, emit (AppendLine "Initialization error handled by handler") g).
Proof. intros [e He]. unfold closed. now rewrite He. Qed.

Lemma run_with_error (evs : list Event) : forall g : Globals,
  is_Some (initializationError g) ->
  Forall (fun r => forall c, r = CloseResponse c -> c = stop_silent) (fst (run evs g)).
Proof.
  induction evs as [| ev evs IH]; intros g Hg; [constructor |].
  pose proof (step_keeps_error ev g Hg) as Hg'.
  specialize (IH _ Hg').
  cbn [run]. destruct (step ev g) as [r g'] eqn:Hstep. cbn [snd] in *.
  destruct (run evs g') as [rs g'']. cbn [fst] in *.
  constructor; [| exact IH].
  intros c ->. destruct ev as [| error serverArgs].
  - unfold step in Hstep. rewrite (closed_with_error g Hg) in Hstep. congruence.
  - cbn in Hstep. congruence.
Qed.

(** C2. Once an initialization error is stored, [closed] answers
    [DoNotRestart] with the empty message whatever the crash counter is,
    leaves the counter alone, and keeps answering so for every close of
    any later sequence of handler calls. *)
Theorem C2_no_restart_after_initialization_error
    (g : Globals) (e : ResponseError) (evs : list Event) :
  initializationError g = Some e ->
  fst (closed g) = stop_silent /\
  crashCount (snd (closed g)) = crashCount g /\
  Forall (fun r => forall c, r = CloseResponse c -> action c = DoNotRestart /\ message c = Some "")
         (fst (run evs g)).
Proof.
  intros He. assert (Hg : is_Some (initializationError g)) by eauto.
  rewrite (closed_with_error g Hg). repeat split.
  eapply Forall_impl; [apply (run_with_error evs g Hg) |].
  intros r Hr c Hc. rewrite (Hr c Hc). now split.
Qed.

Lemma C2_no_restart_after_initialization_error_witness :
  let e := {| code := (-32002)%Z; error_message := "boom"; retry := false |} in
  let g := set_initializationError e (set_crashCount 0 initial) in
  fst (closed g) = stop_silent /\
  crashCount (snd (closed g)) = crashCount g /\
  Forall (fun r => forall c, r = CloseResponse c -> action c = DoNotRestart /\ message c = Some "")
         (fst (run [Closed; Closed; Closed] g)).
Proof.
  intros e g.
  apply (C2_no_restart_after_initialization_error g e [Closed; Closed; Closed]).
  reflexivity.
Defined.

(** C8. For every error, [initializationFailedHandler] stores it in
    [initializationError], sends one telemetry exception, logs the message
    and shows one non-modal error notification whose items are exactly
    Open Settings, Open Logs and More Info, and returns [false]; picking
    More Info opens the troubleshooting page. *)
Theorem C8_initialization_failure_reported
    (error : ResponseError) (serverArgs : list string) (g : Globals) :
  let msg := if decide (head serverArgs = Some "serve")
             then generic_failure else serve_failure in
  let g' := snd (initializationFailedHandler error serverArgs g) in
  fst (initializationFailedHandler error serverArgs g) = false /\
  initializationError g' = Some error /\
  crashCount g' = crashCount g /\
  effects g' = effects g ++
    [ SendTelemetryException error;
      AppendLine msg;
      ShowErrorMessage msg {| detail := ""; modal := false |}
        [ {| title := "Open Settings" |}; {| title := "Open Logs" |};
          {| title := "More Info" |} ] ] /\
  effects (onChoice (Some {| title := "More Info" |}) g')
  = effects g' ++ [ExecuteCommand "vscode.open" troubleshooting_url].
Proof.
  cbv zeta. repeat split.
  unfold initializationFailedHandler. cbn [snd emit effects set_initializationError].
  rewrite <- !app_assoc. cbn [app].
  destruct serverArgs as [| arg0 rest]; cbn [head].
  - now rewrite decide_False by discriminate.
  - destruct (String.eqb_spec arg0 "serve") as [-> | Hne].
    + now rewrite decide_True.
    + rewrite decide_False; [reflexivity | congruence].
Qed.

End Supervisor.

(* ===================================================================== *)
(** * The tree data providers                                            *)
(* ===================================================================== *)

Section Providers.
Import TerraformCloudProvider.

(** The push loop builds the image of the response under [f], in order. *)
Lemma push_each_map {A B} (f : A -> B) (data : list A) :
  push_each f data = map f data.
Proof.
  unfold push_each.
  enough (H : forall acc, foldl (fun items element => items ++ [f element]) acc data
                          = acc ++ map f data) by apply (H []).
  induction data as [| x data IH]; intros acc; cbn.
  - now rewrite app_nil_r.
  - rewrite IH, <- app_assoc. reflexivity.
Qed.

(** A [try] around the bare call of an async function guards nothing:
    the call completes normally with a promise, settled either way. *)
Lemma try_catch_async {A B} (body : M A) (f : Promise A -> B)
    (handler : JsError -> M B) (w : World) :
  try_catch (p ← async body; mret (f p)) handler w
  = (p ← async body; mret (f p)) w.
Proof.
  unfold try_catch, async, mbind, M_bind, mret, M_ret.
  destruct (body w) as [[a | e] w']; reflexivity.
Qed.

Lemma getWorkspaces_world (organization : string) (w : World) :
  snd (WorkspaceTreeDataProvider.getWorkspaces organization w)
  = with_trace (fun t => t ++ [ApiCall (workspaces_request organization w)]) w.
Proof.
  unfold WorkspaceTreeDataProvider.getWorkspaces, workspaces_request, filtered,
    unfiltered, async, mbind, M_bind, get, await_api, mret, M_ret.
  destruct (negb (String.eqb (projectID w) "")); cbn;
    match goal with |- context [apiClient w ?t ?r] => destruct (apiClient w t r) end;
    reflexivity.
Qed.

Lemma getWorkspaces_result (organization : string) (w : World) :
  fst (WorkspaceTreeDataProvider.getWorkspaces organization w)
  = Normal
      match apiClient w (trace w) (workspaces_request organization w) with
      | Ok data =>
          Resolved (map (fun element =>
                           {| ws_name := attr_name (attributes element);
                              ws_id := rec_id element |}) data)
      | Fail error => Rejected error
      end.
Proof.
  unfold WorkspaceTreeDataProvider.getWorkspaces, workspaces_request, filtered,
    unfiltered, async, mbind, M_bind, get, await_api, mret, M_ret.
  destruct (negb (String.eqb (projectID w) "")); cbn;
    match goal with |- context [apiClient w ?t ?r] => destruct (apiClient w t r) end;
    cbn; now rewrite ?push_each_map.
Qed.

(** What [WorkspaceTreeDataProvider.getChildren] does once an organization
    is chosen: exactly what [getWorkspaces] does, wrapped as a thenable. *)
Lemma workspace_getChildren_selected (w : World) :
  let organization := memento_get (globalState (ctx w)) organization_key "" in
  organization <> "" ->
  WorkspaceTreeDataProvider.getChildren w
  = (p ← WorkspaceTreeDataProvider.getWorkspaces organization; mret (Thenable p)) w.
Proof.
  intros organization Hne.
  unfold WorkspaceTreeDataProvider.getChildren.
  unfold mbind at 1. unfold M_bind at 1.
  unfold globalState_organization at 1. unfold mbind at 1, M_bind at 1, get at 1, mret at 1, M_ret at 1.
  fold organization.
  destruct (String.eqb_spec organization "") as [Heq | _]; [contradiction |].
  unfold WorkspaceTreeDataProvider.getWorkspaces.
  apply try_catch_async.
Qed.

Lemma run_getRuns_world (item : WorkspaceTreeItem) (w : World) :
  snd (RunTreeDataProvider.getRuns item w)
  = with_trace (fun t => t ++ [ApiCall (runs_of item)]) w.
Proof.
  unfold RunTreeDataProvider.getRuns, runs_of, globalState_organization,
    async, mbind, M_bind, get, await_api, mret, M_ret. cbn.
  match goal with |- context [apiClient w ?t ?r] => destruct (apiClient w t r) end;
    reflexivity.
Qed.

Lemma run_getRuns_result (item : WorkspaceTreeItem) (w : World) :
  fst (RunTreeDataProvider.getRuns item w)
  = Normal
      match apiClient w (trace w) (runs_of item) with
      | Ok data =>
          Resolved (map (fun element =>
                           {| run_label := attr_message (attributes element);
                              run_id := rec_id element;
                              run_url :=
                                RunTreeDataProvider.derive_url
                                  (memento_get (globalState (ctx w)) organization_key "")
                                  item element |}) data)
      | Fail error => Rejected error
      end.
Proof.
  unfold RunTreeDataProvider.getRuns, runs_of, globalState_organization,
    async, mbind, M_bind, get, await_api, mret, M_ret. cbn.
  match goal with |- context [apiClient w ?t ?r] => destruct (apiClient w t r) end;
    cbn; now rewrite ?push_each_map.
Qed.

Lemma run_getChildren_selected (item : WorkspaceTreeItem) (w : World) :
  workspace w = Some item ->
  RunTreeDataProvider.getChildren w
  = (p ← RunTreeDataProvider.getRuns item; mret (Thenable p)) w.
Proof.
  intros Hw. unfold RunTreeDataProvider.getChildren.
  unfold mbind at 1. unfold M_bind at 1. unfold get at 1. rewrite Hw.
  unfold RunTreeDataProvider.getRuns. apply try_catch_async.
Qed.

(** Sequencing a state-only step before a computation. *)
Lemma bind_snd {A B} (m : M A) (k : A -> M B) (w : World) (a : A) (w' : World) :
  m w = (Normal a, w') -> (m ≫= k) w = k a w'.
Proof. intros H. unfold mbind, M_bind. now rewrite H. Qed.

Lemma bind_pure {A B} (m : M A) (f : A -> B) (w : World) (a : A) :
  fst (m w) = Normal a ->
  (x ← m; mret (f x)) w = (Normal (f a), snd (m w)).
Proof.
  intros H. unfold mbind, M_bind, mret, M_ret.
  destruct (m w) as [c w']. cbn in *. now subst.
Qed.

(** With an organization chosen, [WorkspaceTreeDataProvider.getChildren]
    sends one request and hands back the promise of [getWorkspaces] as it
    is; nothing but the trace changes. *)
Lemma workspace_getChildren_spec (w : World) :
  let organization := memento_get (globalState (ctx w)) organization_key "" in
  organization <> "" ->
  WorkspaceTreeDataProvider.getChildren w
  = (Normal (Thenable
       match apiClient w (trace w) (workspaces_request organization w) with
       | Ok data =>
           Resolved (map (fun element =>
                            {| ws_name := attr_name (attributes element);
                               ws_id := rec_id element |}) data)
       | Fail error => Rejected error
       end),
     with_trace (fun t => t ++ [ApiCall (workspaces_request organization w)]) w).
Proof.
  intros organization Hne.
  rewrite (workspace_getChildren_selected w Hne). fold organization.
  rewrite (bind_pure _ Thenable w _ (getWorkspaces_result organization w)).
  now rewrite getWorkspaces_world.
Qed.

Lemma run_getChildren_spec (item : WorkspaceTreeItem) (w : World) :
  workspace w = Some item ->
  RunTreeDataProvider.getChildren w
  = (Normal (Thenable
       match apiClient w (trace w) (runs_of item) with
       | Ok data =>
           Resolved (map (fun element =>
                            {| run_label := attr_message (attributes element);
                               run_id := rec_id element;
                               run_url :=
                                 RunTreeDataProvider.derive_url
                                   (memento_get (globalState (ctx w)) organization_key "")
                                   item element |}) data)
       | Fail error => Rejected error
       end),
     with_trace (fun t => t ++ [ApiCall (runs_of item)]) w).
Proof.
  intros Hw. rewrite (run_getChildren_selected item w Hw).
  rewrite (bind_pure _ Thenable w _ (run_getRuns_result item w)).
  now rewrite run_getRuns_world.
Qed.

Lemma workspace_refresh_spec (project : option string) (w : World) :
  WorkspaceTreeDataProvider.refresh project w
  = (Normal tt,
     with_trace (fun t => t ++ [FireWorkspaces]) (set_projectID (default "" project) w)).
Proof. reflexivity. Qed.

Lemma run_refresh_spec (item : option WorkspaceTreeItem) (w : World) :
  RunTreeDataProvider.refresh item w
  = (Normal tt,
     with_trace (fun t => t ++ [FireRuns])
       match item with Some i => set_workspace (Some i) w | None => w end).
Proof. destruct item; reflexivity. Qed.

(** C4. With the empty string as the current organization (stored, or
    defaulted because nothing is stored), the workspace provider's
    [getChildren] returns the empty array at once and leaves the world,
    and so the trace of remote calls, as it was, whatever the project
    filter holds. *)
Theorem C4_no_organization_no_fetch (w : World) :
  memento_get (globalState (ctx w)) organization_key "" = "" ->
  WorkspaceTreeDataProvider.getChildren w = (Normal (Immediate []), w).
Proof.
  intros Horg. unfold WorkspaceTreeDataProvider.getChildren,
    globalState_organization, mbind, M_bind, get, mret, M_ret.
  now rewrite Horg.
Qed.

Lemma C4_no_organization_no_fetch_witness :
  let w := set_projectID "prj-123"
             (TerraformCloudFeature.constructor
                (fun _ _ => Ok [])
                {| workspaceState := ∅;
                   globalState := {[ organization_key := "" ]} |}) in
  WorkspaceTreeDataProvider.getChildren w = (Normal (Immediate []), w).
Proof.
  intros w. apply (C4_no_organization_no_fetch w). reflexivity.
Defined.

(** C5. With organization [organization] chosen, [refresh(project)] for a
    non-empty [project] followed by [getChildren()] fires the change event
    and then calls [listWorkspaces] with [organization_name] and the query
    [filter[project][id] = project]; from a world whose project filter is
    the empty string [getChildren()] calls [listWorkspaces] with
    [organization_name] only. *)
Theorem C5_workspace_request_follows_filter
    (w : World) (organization project : string) :
  memento_get (globalState (ctx w)) organization_key "" = organization ->
  organization <> "" ->
  project <> "" ->
  trace (snd ((WorkspaceTreeDataProvider.refresh (Some project);;
               WorkspaceTreeDataProvider.getChildren) w))
  = trace w ++
    [ FireWorkspaces;
      ApiCall (listWorkspaces
                 {| params := [("organization_name", organization)];
                    queries := Some [("filter[project][id]", project)] |}) ] /\
  trace (snd (WorkspaceTreeDataProvider.getChildren (set_projectID "" w)))
  = trace w ++
    [ ApiCall (listWorkspaces
                 {| params := [("organization_name", organization)];
                    queries := None |}) ].
Proof.
  intros Horg Hne Hp. split.
  - rewrite (bind_snd _ _ w tt _ (workspace_refresh_spec (Some project) w)).
    rewrite workspace_getChildren_spec; cbn [ctx with_trace set_projectID];
      rewrite Horg; [| exact Hne].
    cbn [snd trace with_trace]. rewrite <- app_assoc. cbn [app].
    unfold workspaces_request. cbn.
    destruct (String.eqb_spec project "") as [Heq | _]; [contradiction |].
    reflexivity.
  - rewrite workspace_getChildren_spec; cbn [ctx set_projectID];
      rewrite Horg; [| exact Hne].
    reflexivity.
Qed.

Lemma C5_workspace_request_follows_filter_witness :
  let w := TerraformCloudFeature.constructor
             (fun _ _ => Ok [])
             {| workspaceState := ∅;
                globalState := {[ organization_key := "acme" ]} |} in
  trace (snd ((WorkspaceTreeDataProvider.refresh (Some "prj-123");;
               WorkspaceTreeDataProvider.getChildren) w))
  = trace w ++
    [ FireWorkspaces;
      ApiCall (listWorkspaces
                 {| params := [("organization_name", "acme")];
                    queries := Some [("filter[project][id]", "prj-123")] |}) ] /\
  trace (snd (WorkspaceTreeDataProvider.getChildren (set_projectID "" w)))
  = trace w ++
    [ ApiCall (listWorkspaces
                 {| params := [("organization_name", "acme")];
                    queries := None |}) ].
Proof.
  intros w.
  apply (C5_workspace_request_follows_filter w "acme" "prj-123");
    [reflexivity | discriminate | discriminate].
Defined.

(** C6. After [refresh(W)] on the run provider, [getChildren()] calls
    [listRuns] with [workspace_id = W.id]; when that call returns [runs],
    the promise resolves to one item per run, in order, whose URL is
    [https://app.staging.terraform.io/app/<org>/workspaces/<W.name>/runs/<R.id>]
    with [<org>] the current organization value. *)
Theorem C6_runs_of_selected_workspace
    (w : World) (W : WorkspaceTreeItem) (runs : list ApiRecord) :
  let organization := memento_get (globalState (ctx w)) organization_key "" in
  let request :=
    listRuns {| params := [("workspace_id", ws_id W)]; queries := None |} in
  apiClient w (trace w ++ [FireRuns]) request = Ok runs ->
  (RunTreeDataProvider.refresh (Some W);; RunTreeDataProvider.getChildren) w
  = (Normal (Thenable (Resolved
       (map (fun R =>
               {| run_label := attr_message (attributes R);
                  run_id := rec_id R;
                  run_url := "https://" +:+ "app.staging.terraform.io" +:+ "/app/" +:+
                             organization +:+ "/workspaces/" +:+ ws_name W +:+
                             "/runs/" +:+ rec_id R |})
            runs))),
     with_trace (fun t => t ++ [FireRuns; ApiCall request])
                (set_workspace (Some W) w)).
Proof.
  intros organization request Hruns.
  rewrite (bind_snd _ _ w tt _ (run_refresh_spec (Some W) w)).
  rewrite (run_getChildren_spec W) by reflexivity.
  cbn [trace with_trace set_workspace apiClient ctx]. fold organization.
  change (runs_of W) with request. rewrite Hruns.
  unfold with_trace. cbn. rewrite <- app_assoc. reflexivity.
Qed.

Lemma C6_runs_of_selected_workspace_witness :
  let api : list Effect -> Request -> ApiResult := fun _ _ =>
    Ok [ {| rec_id := "run-7";
            attributes := {| attr_name := ""; attr_message := "apply" |} |} ] in
  let w := TerraformCloudFeature.constructor api
             {| workspaceState := ∅;
                globalState := {[ organization_key := "acme" ]} |} in
  let W := {| ws_name := "web"; ws_id := "ws-1" |} in
  (RunTreeDataProvider.refresh (Some W);; RunTreeDataProvider.getChildren) w
  = (Normal (Thenable (Resolved
       [ {| run_label := "apply"; run_id := "run-7";
            run_url :=
              "https://app.staging.terraform.io/app/acme/workspaces/web/runs/run-7" |} ])),
     with_trace
       (fun t => t ++ [FireRuns;
                       ApiCall (listRuns {| params := [("workspace_id", "ws-1")];
                                            queries := None |})])
       (set_workspace (Some W) w)).
Proof.
  intros api w W.
  apply (C6_runs_of_selected_workspace w W
           [ {| rec_id := "run-7";
                attributes := {| attr_name := ""; attr_message := "apply" |} |} ]).
  reflexivity.
Defined.

(** C9. [refresh()] on the workspace provider, called without a project,
    sets the project filter to the empty string, whatever it was, and
    fires the change event on the world so cleared; the list-all command
    ends in the same state as [refresh()] followed by the run provider's
    [refresh()], with an empty filter and both change events fired. *)
Theorem C9_refresh_without_project_clears_filter (w : World) :
  WorkspaceTreeDataProvider.refresh None w
  = (Normal tt,
     with_trace (fun t => t ++ [FireWorkspaces]) (set_projectID "" w)) /\
  projectID (snd (WorkspaceTreeDataProvider.refresh None w)) = "" /\
  WorkspaceTreeDataProvider.listAll w
  = (WorkspaceTreeDataProvider.refresh None;; RunTreeDataProvider.refresh None) w /\
  projectID (snd (WorkspaceTreeDataProvider.listAll w)) = "" /\
  trace (snd (WorkspaceTreeDataProvider.listAll w))
  = trace w ++ [FireWorkspaces; FireRuns].
Proof.
  repeat split.
  unfold WorkspaceTreeDataProvider.listAll, WorkspaceTreeDataProvider.refresh,
    RunTreeDataProvider.refresh, mbind, M_bind, mret, M_ret, modify, emit.
  cbn. now rewrite <- app_assoc.
Qed.

(** C10. [refresh()] on the run provider, called without a workspace,
    changes nothing but the trace, to which it adds the change event; the
    selection is kept, so the run-view refresh command followed by
    [getChildren()] asks for the runs of the workspace selected before
    (and asks for nothing when none was). *)
Theorem C10_run_refresh_keeps_selection (w : World) :
  RunTreeDataProvider.refresh None w
  = (Normal tt, with_trace (fun t => t ++ [FireRuns]) w) /\
  workspace (snd (RunTreeDataProvider.refresh None w)) = workspace w /\
  trace (snd ((RunTreeDataProvider.runs_refresh;;
               RunTreeDataProvider.getChildren) w))
  = trace w ++ FireRuns ::
      match workspace w with
      | Some item =>
          [ApiCall (listRuns {| params := [("workspace_id", ws_id item)];
                                queries := None |})]
      | None => []
      end.
Proof.
  split; [reflexivity |]. split; [reflexivity |].
  unfold RunTreeDataProvider.runs_refresh.
  rewrite (bind_snd _ _ w tt _ (run_refresh_spec None w)).
  destruct (workspace w) as [item |] eqn:Hw.
  - rewrite (run_getChildren_spec item) by exact Hw.
    cbn. now rewrite <- app_assoc.
  - unfold RunTreeDataProvider.getChildren, mbind, M_bind, get, mret, M_ret.
    cbn. now rewrite Hw.
Qed.

(** With an organization chosen, a failed [listWorkspaces] call comes out
    of [getChildren] as a rejected promise: the [catch] clause is not
    reached. *)
Lemma workspace_getChildren_rejects (w : World) (error : JsError) :
  let organization := memento_get (globalState (ctx w)) organization_key "" in
  organization <> "" ->
  apiClient w (trace w) (workspaces_request organization w) = Fail error ->
  fst (WorkspaceTreeDataProvider.getChildren w) = Normal (Thenable (Rejected error)).
Proof.
  intros organization Hne Hfail.
  rewrite (workspace_getChildren_spec w Hne). fold organization.
  now rewrite Hfail.
Qed.

Lemma run_getChildren_rejects (w : World) (item : WorkspaceTreeItem) (error : JsError) :
  workspace w = Some item ->
  apiClient w (trace w) (runs_of item) = Fail error ->
  fst (RunTreeDataProvider.getChildren w) = Normal (Thenable (Rejected error)).
Proof.
  intros Hw Hfail. rewrite (run_getChildren_spec item w Hw). now rewrite Hfail.
Qed.

(** C3. Organization [acme] chosen, workspace [web] selected, and every
    remote call failing with a network error: both providers'
    [getChildren()] return a promise that is rejected with that error;
    neither resolves to the empty array. *)
Theorem C3_fetch_failure_is_rejected :
  let error := {| error_text := "getaddrinfo ENOTFOUND app.terraform.io" |} in
  let w := TerraformCloudFeature.constructor
             (fun _ _ => Fail error)
             {| workspaceState := ∅;
                globalState := {[ organization_key := "acme" ]} |} in
  let item := {| ws_name := "web"; ws_id := "ws-1" |} in
  fst (WorkspaceTreeDataProvider.getChildren w)
  = Normal (Thenable (Rejected error)) /\
  fst (WorkspaceTreeDataProvider.getChildren w)
  <> Normal (Thenable (Resolved [])) /\
  fst (RunTreeDataProvider.getChildren (set_workspace (Some item) w))
  = Normal (Thenable (Rejected error)) /\
  fst (RunTreeDataProvider.getChildren (set_workspace (Some item) w))
  <> Normal (Thenable (Resolved [])).
Proof.
  intros error w item.
  assert (Hw : fst (WorkspaceTreeDataProvider.getChildren w)
               = Normal (Thenable (Rejected error))).
  { apply workspace_getChildren_rejects; [discriminate | reflexivity]. }
  assert (Hr : fst (RunTreeDataProvider.getChildren (set_workspace (Some item) w))
               = Normal (Thenable (Rejected error))).
  { apply (run_getChildren_rejects _ item); reflexivity. }
  rewrite Hw, Hr. repeat split; discriminate.
Qed.

(** What the organization picker does when the organization list arrives
    and the user picks [answer]. *)
Lemma organization_picker_spec (w : World) (answer : string) (orgs : list ApiRecord) :
  apiClient w (trace w) listOrganizations = Ok orgs ->
  TerraformCloudFeature.organization_picker (Some answer) w
  = (Normal (Resolved tt),
     {| apiClient := apiClient w;
        ctx := {| workspaceState := workspaceState (ctx w);
                  globalState := <[organization_key := answer]> (globalState (ctx w)) |};
        organizationStatusBar := {| text := answer; visible := true |};
        projectID := projectID w;
        workspace := workspace w;
        trace := trace w ++
          [ ApiCall listOrganizations;
            ShowQuickPickStrings (map (fun element => attr_name (attributes element)) orgs);
            ShowInformationMessage ("Chose " +:+ answer +:+ " organization") ] |}).
Proof.
  intros Horgs.
  unfold TerraformCloudFeature.organization_picker, async, mbind, M_bind,
    await_api, emit, modify, mret, M_ret.
  rewrite Horgs. unfold set_ctx, set_statusBar, with_trace. cbn.
  rewrite push_each_map, <- !app_assoc. reflexivity.
Qed.

Lemma memento_get_update (m : gmap string string) (key value d : string) :
  memento_get (memento_update m key value) key d = value.
Proof. unfold memento_get, memento_update. now rewrite lookup_insert_eq. Qed.

(** No command that sets the project filter touches either store. *)
Lemma filterByProject_ctx (pick : option QuickPickItem) (w : World) :
  ctx (snd (WorkspaceTreeDataProvider.filterByProject pick w)) = ctx w.
Proof.
  unfold WorkspaceTreeDataProvider.filterByProject,
    WorkspaceTreeDataProvider.refresh, RunTreeDataProvider.refresh,
    globalState_organization, async, get, await_api, emit, modify,
    mbind, M_bind, mret, M_ret.
  cbn.
  destruct (String.eqb (memento_get (globalState (ctx w)) organization_key "") "");
    [reflexivity |].
  match goal with |- context [apiClient w ?t ?r] => destruct (apiClient w t r) end;
    [| reflexivity].
  destruct pick; reflexivity.
Qed.

(** C7, as the code has it. The organization picker stores the chosen name
    under [terraform.cloud.organization] in [globalState] and leaves
    [workspaceState] alone; the workspace provider and the run provider
    read the organization back from that same [globalState] entry; the
    project filter lives in the provider's field only: no command that
    sets it changes either store. *)
Theorem C7_organization_in_global_state
    (w : World) (answer : string) (orgs : list ApiRecord) :
  apiClient w (trace w) listOrganizations = Ok orgs ->
  answer <> "" ->
  let w' := snd (TerraformCloudFeature.organization_picker (Some answer) w) in
  globalState (ctx w') = <[organization_key := answer]> (globalState (ctx w)) /\
  workspaceState (ctx w') = workspaceState (ctx w) /\
  trace (snd (WorkspaceTreeDataProvider.getChildren w'))
  = trace w' ++ [ApiCall (workspaces_request answer w')] /\
  (forall item,
     fst (RunTreeDataProvider.getRuns item w')
     = Normal
         match apiClient w' (trace w') (runs_of item) with
         | Ok data =>
             Resolved (map (fun element =>
                              {| run_label := attr_message (attributes element);
                                 run_id := rec_id element;
                                 run_url :=
                                   RunTreeDataProvider.derive_url answer item element |})
                           data)
         | Fail error => Rejected error
         end) /\
  (forall project,
     projectID (snd (WorkspaceTreeDataProvider.refresh project w)) = default "" project /\
     ctx (snd (WorkspaceTreeDataProvider.refresh project w)) = ctx w) /\
  (forall pick, ctx (snd (WorkspaceTreeDataProvider.filterByProject pick w)) = ctx w) /\
  ctx (snd (WorkspaceTreeDataProvider.listAll w)) = ctx w /\
  (forall item, ctx (snd (WorkspaceTreeDataProvider.workspaces_refresh item w)) = ctx w).
Proof.
  intros Horgs Hne w'.
  assert (Hread : memento_get (globalState (ctx w')) organization_key "" = answer).
  { subst w'. rewrite (organization_picker_spec w answer orgs Horgs).
    apply memento_get_update. }
  split; [subst w'; now rewrite (organization_picker_spec w answer orgs Horgs) |].
  split; [subst w'; now rewrite (organization_picker_spec w answer orgs Horgs) |].
  split.
  { rewrite workspace_getChildren_spec; rewrite Hread; [reflexivity | exact Hne]. }
  split.
  { intros item. rewrite run_getRuns_result. now rewrite Hread. }
  split; [intros project; split; reflexivity |].
  split; [intros pick; apply filterByProject_ctx |].
  split; [reflexivity |].
  intros item. destruct item; reflexivity.
Qed.

Lemma C7_organization_in_global_state_witness :
  let api : list Effect -> Request -> ApiResult := fun _ _ =>
    Ok [ {| rec_id := "org-1";
            attributes := {| attr_name := "acme"; attr_message := "" |} |} ] in
  let w := TerraformCloudFeature.constructor api
             {| workspaceState := ∅; globalState := ∅ |} in
  let w' := snd (TerraformCloudFeature.organization_picker (Some "acme") w) in
  globalState (ctx w') = <[organization_key := "acme"]> (globalState (ctx w)) /\
  workspaceState (ctx w') = workspaceState (ctx w).
Proof.
  intros api w w'.
  pose proof (C7_organization_in_global_state w "acme"
    [ {| rec_id := "org-1";
         attributes := {| attr_name := "acme"; attr_message := "" |} |} ]
    eq_refl ltac:(discriminate)) as H.
  split; [exact (proj1 H) | exact (proj1 (proj2 H))].
Defined.

(** C7, as the claim words it, fails: after the picker has stored [acme],
    [workspaceState] holds nothing under the organization key, the name is
    in [globalState], and a feature constructed over the resulting context
    starts with an empty, hidden status bar. *)
Lemma C7_organization_not_workspace_scoped :
  let api : list Effect -> Request -> ApiResult := fun _ _ =>
    Ok [ {| rec_id := "org-1";
            attributes := {| attr_name := "acme"; attr_message := "" |} |} ] in
  let w := TerraformCloudFeature.constructor api
             {| workspaceState := ∅; globalState := ∅ |} in
  let w' := snd (TerraformCloudFeature.organization_picker (Some "acme") w) in
  workspaceState (ctx w') !! organization_key <> Some "acme" /\
  globalState (ctx w') !! organization_key = Some "acme" /\
  organizationStatusBar (TerraformCloudFeature.constructor api (ctx w'))
  = {| text := ""; visible := false |}.
Proof.
  cbv zeta. repeat split. vm_compute. discriminate.
Qed.

End Providers.

(* ===================================================================== *)
(** * Sessions of handler calls                                          *)
(* ===================================================================== *)

Section Sessions.
Import Extension Session.

Lemma run_cons (ev : Event) (evs : list Event) (g : Globals) :
  run (ev :: evs) g
  = (fst (step ev g) :: fst (run evs (snd (step ev g))),
     snd (run evs (snd (step ev g)))).
Proof.
  cbn [run]. destruct (step ev g) as [r g']. cbn [fst snd].
  now destruct (run evs g') as [rs g''].
Qed.

Lemma run_app (evs1 evs2 : list Event) : forall g : Globals,
  run (evs1 ++ evs2) g
  = (fst (run evs1 g) ++ fst (run evs2 (snd (run evs1 g))),
     snd (run evs2 (snd (run evs1 g)))).
Proof.
  induction evs1 as [| ev evs1 IH]; intros g.
  - cbn. now destruct (run evs2 g).
  - rewrite <- app_comm_cons, !run_cons, IH. reflexivity.
Qed.

Lemma run_length (evs : list Event) : forall g : Globals,
  length (fst (run evs g)) = length evs.
Proof.
  induction evs as [| ev evs IH]; intros g; [reflexivity |].
  rewrite run_cons. cbn. now rewrite IH.
Qed.

(** The three shapes a call of [closed] can take. *)
Lemma closed_cases (g : Globals) :
  (is_Some (initializationError g) /\
   closed g = (stop_silent,
               emit (AppendLine "Initialization error handled by handler") g)) \/
  (initializationError g = None /\ crashCount g = 0%N /\
   closed g = (restart_once,
               emit (AppendLine "Server has failed. Restarting") (set_crashCount 1 g))) \/
  (initializationError g = None /\ (1 <= crashCount g)%N /\
   closed g = (stop_generic,
               emit (AppendLine generic_failure)
                    (set_crashCount (js_add1 (crashCount g)) g))).
Proof.
  destruct (initializationError g) as [e |] eqn:He.
  - left. split; [eauto |]. unfold closed. now rewrite He.
  - right. destruct (N.eq_dec (crashCount g) 0) as [H0 | Hpos].
    + left. repeat split; try assumption. unfold closed. rewrite He, H0. reflexivity.
    + right. assert (Hc : (1 <= crashCount g)%N) by lia.
      repeat split; try assumption.
      unfold closed. rewrite He. cbn [set_crashCount crashCount].
      pose proof (js_add1_after_crash _ Hc).
      destruct (N.leb_spec (js_add1 (crashCount g)) 1); [lia | reflexivity].
Qed.

Lemma fresh_false_error (g : Globals) :
  is_Some (initializationError g) -> fresh g = false.
Proof. intros [e He]. unfold fresh. rewrite He. apply andb_false_r. Qed.

Lemma fresh_false_crashed (g : Globals) :
  (1 <= crashCount g)%N -> fresh g = false.
Proof.
  intros Hc. unfold fresh.
  destruct (N.eqb_spec (crashCount g) 0); [lia | reflexivity].
Qed.

Lemma restarts_bound (evs : list Event) : forall g : Globals,
  length (List.filter is_restart (fst (run evs g))) <= (if fresh g then 1 else 0).
Proof.
  induction evs as [| ev evs IH]; intros g.
  - cbn. destruct (fresh g); lia.
  - rewrite run_cons. cbn [fst List.filter].
    destruct ev as [| error serverArgs].
    + unfold step.
      destruct (closed_cases g) as [[He Hcl] | [(He & Hc & Hcl) | (He & Hc & Hcl)]];
        rewrite Hcl; cbn [fst snd is_restart stop_silent restart_once stop_generic action].
      * specialize (IH (emit (AppendLine "Initialization error handled by handler") g)).
        rewrite fresh_false_error in IH by exact He.
        destruct (fresh g); lia.
      * specialize (IH (emit (AppendLine "Server has failed. Restarting")
                             (set_crashCount 1 g))).
        rewrite fresh_false_crashed in IH by (cbn; lia).
        assert (Hf : fresh g = true).
        { unfold fresh. rewrite He, Hc. reflexivity. }
        rewrite Hf. cbn [length]. lia.
      * specialize (IH (emit (AppendLine generic_failure)
                             (set_crashCount (js_add1 (crashCount g)) g))).
        rewrite fresh_false_crashed in IH
          by (cbn; pose proof (js_add1_after_crash _ Hc); lia).
        destruct (fresh g); lia.
    + cbn [step initializationFailedHandler fst snd is_restart].
      match goal with |- context [run evs ?g'] => specialize (IH g') end.
      rewrite fresh_false_error in IH by (cbn; eauto).
      destruct (fresh g); lia.
Qed.

(** X1. However close events and initialization failures interleave, and
    from whatever state, the handlers answer [Restart] at most once; they
    never do when a crash has already been counted or an initialization
    error is already stored. *)
Theorem X1_at_most_one_restart (evs : list Event) (g : Globals) :
  length (List.filter is_restart (fst (run evs g)))
  <= (if fresh g then 1 else 0).
Proof. apply restarts_bound. Qed.

Lemma run_failures_error (fails : list (ResponseError * list string)) :
  forall g : Globals,
  fails <> [] -> is_Some (initializationError (snd (run (map failure fails) g))).
Proof.
  induction fails as [| p fails IH]; intros g Hne; [contradiction |].
  cbn [map]. rewrite run_cons. cbn [snd].
  destruct fails as [| q fails'].
  - cbn. eauto.
  - apply IH. discriminate.
Qed.

(** X2. In a session that starts from the initial state, the first close
    is answered with [Restart] when no initialization failure came before
    it, and with the silent [DoNotRestart] when at least one did. *)
Theorem X2_first_close_after_failures
    (fails : list (ResponseError * list string)) (later : list Event) :
  fst (run (map failure fails ++ Closed :: later) initial) !! length fails
  = Some (CloseResponse
            match fails with
            | [] => restart_once
            | _ :: _ => stop_silent
            end).
Proof.
  rewrite run_app. cbn [fst].
  rewrite lookup_app_r by (rewrite run_length, length_map; lia).
  rewrite run_length, length_map, Nat.sub_diag, run_cons. cbn [fst lookup].
  destruct fails as [| p fails].
  - reflexivity.
  - unfold step.
    rewrite closed_with_error by (apply run_failures_error; discriminate).
    reflexivity.
Qed.

Lemma last_error_run (evs : list Event) : forall g : Globals,
  initializationError (snd (run evs g)) = last_error evs (initializationError g).
Proof.
  induction evs as [| ev evs IH]; intros g; [reflexivity |].
  rewrite run_cons. cbn [snd]. rewrite IH. destruct ev as [| error serverArgs].
  - cbn [last_error]. f_equal. unfold step.
    destruct (closed_cases g) as [[He Hcl] | [(He & Hc & Hcl) | (He & Hc & Hcl)]];
      now rewrite Hcl.
  - reflexivity.
Qed.

(** X3. The stored initialization error is never cleared and never
    changed by a close: after any session it is the error of the most
    recent initialization failure, or what was stored before when there
    was none. *)
Theorem X3_error_slot_holds_latest_failure (evs : list Event) (g : Globals) :
  initializationError (snd (run evs g)) = last_error evs (initializationError g).
Proof. apply last_error_run. Qed.

Lemma step_logs_once (ev : Event) (g : Globals) :
  exists l, effects (snd (step ev g)) = effects g ++ l /\
            length (List.filter is_log l) = 1.
Proof.
  destruct ev as [| error serverArgs].
  - unfold step.
    destruct (closed_cases g) as [[He Hcl] | [(He & Hc & Hcl) | (He & Hc & Hcl)]];
      rewrite Hcl; cbn [snd emit effects set_crashCount];
      eexists; split; try reflexivity; reflexivity.
  - cbn [step initializationFailedHandler snd emit effects set_initializationError].
    rewrite <- !app_assoc. cbn [app].
    eexists; split; [reflexivity | reflexivity].
Qed.

(** X4. The handlers only ever add to the trace of effects, and each
    handler call, whichever branch it takes, writes exactly one line to
    the output channel. *)
Theorem X4_one_log_line_per_event (evs : list Event) (g : Globals) :
  exists l, effects (snd (run evs g)) = effects g ++ l /\
            length (List.filter is_log l) = length evs.
Proof.
  revert g. induction evs as [| ev evs IH]; intros g.
  - exists []. split; [now rewrite app_nil_r | reflexivity].
  - rewrite run_cons. cbn [snd].
    destruct (step_logs_once ev g) as (l1 & H1 & L1).
    destruct (IH (snd (step ev g))) as (l2 & H2 & L2).
    exists (l1 ++ l2). split.
    + now rewrite H2, H1, app_assoc.
    + rewrite List.filter_app, length_app, L1, L2. reflexivity.
Qed.

Lemma js_add1_min (n : N) :
  (n <= 2 ^ 53)%N -> js_add1 n = N.min (n + 1) (2 ^ 53).
Proof.
  unfold js_add1. change (2 ^ 53)%N with 9007199254740992%N. intros Hn.
  destruct (N.ltb_spec n 9007199254740992); lia.
Qed.

Lemma crashCount_with_error (evs : list Event) : forall g : Globals,
  is_Some (initializationError g) -> crashCount (snd (run evs g)) = crashCount g.
Proof.
  induction evs as [| ev evs IH]; intros g Hg; [reflexivity |].
  rewrite run_cons. cbn [snd].
  rewrite IH by now apply step_keeps_error.
  destruct ev as [| error serverArgs]; [| reflexivity].
  unfold step. now rewrite closed_with_error.
Qed.

Lemma crashCount_run (evs : list Event) : forall g : Globals,
  initializationError g = None -> (crashCount g <= 2 ^ 53)%N ->
  crashCount (snd (run evs g))
  = N.min (crashCount g + N.of_nat (closes_before_failure evs)) (2 ^ 53).
Proof.
  induction evs as [| ev evs IH]; intros g He Hb.
  - cbn. change (2 ^ 53)%N with 9007199254740992%N in *. lia.
  - rewrite run_cons. cbn [snd]. destruct ev as [| error serverArgs].
    + cbn [closes_before_failure]. unfold step.
      destruct (closed_cases g) as [[[e He'] Hcl] | [(_ & Hc & Hcl) | (_ & Hc & Hcl)]];
        [congruence | |]; rewrite Hcl; cbn [snd].
      * rewrite IH; cbn [emit set_crashCount crashCount initializationError];
          try exact He.
        -- rewrite Hc. change (2 ^ 53)%N with 9007199254740992%N. lia.
        -- change (2 ^ 53)%N with 9007199254740992%N. lia.
      * rewrite IH; cbn [emit set_crashCount crashCount initializationError];
          try exact He; rewrite (js_add1_min _ Hb);
          change (2 ^ 53)%N with 9007199254740992%N in *; lia.
    + cbn [closes_before_failure].
      rewrite crashCount_with_error by (cbn; eauto).
      cbn. change (2 ^ 53)%N with 9007199254740992%N in *. lia.
Qed.

(** X5. After any session from the initial state the crash counter is the
    number of closes that came before the first initialization failure
    (capped at 2^53, where the double addition stops counting): closes
    that follow an initialization failure are not counted. *)
Theorem X5_crash_counter_counts_early_closes (evs : list Event) :
  crashCount (snd (run evs initial))
  = N.min (N.of_nat (closes_before_failure evs)) (2 ^ 53).
Proof.
  rewrite crashCount_run; [reflexivity | reflexivity |].
  cbn. change (2 ^ 53)%N with 9007199254740992%N. lia.
Qed.

End Sessions.

(* ===================================================================== *)
(** * Deactivation                                                       *)
(* ===================================================================== *)

Section Deactivating.
Import Deactivation.

(** X6. [deactivate] never rejects, whether there is a client or not and
    however stopping it ends.  A rejection with an [Error] or a string is
    reported once on each channel (output channel, telemetry, error
    message) with that text, in this order; a rejection with any other
    value, a clean stop, and a missing client add nothing to the trace. *)
Theorem X6_deactivate_swallows_stop_failures
    (client : option StopOutcome) (t : list Effect) :
  deactivate client t
  = (Done,
     t ++ match reported_text client with
          | Some text =>
              [AppendLine text; SendTelemetryException text; ShowErrorMessage text]
          | None => []
          end).
Proof.
  destruct client as [[| [message | s |]] |];
    unfold deactivate, try_catch, await_stop, seq, emit, skip; cbn;
    rewrite ?app_nil_r, <- ?app_assoc; reflexivity.
Qed.

End Deactivating.

(* ===================================================================== *)
(** * The notification of an initialization failure                      *)
(* ===================================================================== *)

Section Notification.
Import Extension Session.

Lemma onChoice_offered (g : Globals) (item : MessageItem) :
  item ∈ [ {| title := "Open Settings" |}; {| title := "Open Logs" |};
           {| title := "More Info" |} ] ->
  exists e, onChoice (Some item) g = emit e g /\ is_log e = false.
Proof.
  intros Hin. repeat (apply elem_of_cons in Hin as [-> | Hin]);
    [| | | now apply elem_of_nil in Hin]; eexists; split; reflexivity.
Qed.

(** X7. Every item the initialization-failure notification offers is
    acted on: picking it performs exactly one action (and writes no log
    line), dismissing the notification performs none, and in no case does
    the continuation touch the stored error or the crash counter. *)
Theorem X7_every_offered_choice_is_handled
    (error : ResponseError) (serverArgs : list string) (g : Globals)
    (choice : option MessageItem) :
  let g' := snd (initializationFailedHandler error serverArgs g) in
  (exists msg options items,
     last (effects g') = Some (ShowErrorMessage msg options items) /\
     Forall (fun item => exists e, onChoice (Some item) g' = emit e g' /\
                                   is_log e = false) items) /\
  onChoice None g' = g' /\
  initializationError (onChoice choice g') = Some error /\
  crashCount (onChoice choice g') = crashCount g.
Proof.
  cbv zeta. split; [| split; [reflexivity |]].
  - do 3 eexists. split.
    + unfold initializationFailedHandler. cbn [snd emit effects].
      apply last_snoc.
    + apply Forall_forall. intros item Hin. now apply onChoice_offered.
  - destruct choice as [c |]; [| split; reflexivity].
    unfold onChoice.
    destruct (String.eqb (title c) "Open Logs"); [split; reflexivity |].
    destruct (String.eqb (title c) "Open Settings"); [split; reflexivity |].
    destruct (String.eqb (title c) "More Info"); split; reflexivity.
Qed.

End Notification.

(* ===================================================================== *)
(** * The providers and their commands, beyond the fetch                 *)
(* ===================================================================== *)

Section Commands.
Import TerraformCloudProvider Views.

Lemma with_trace_nil (w : World) : with_trace (fun t => t ++ []) w = w.
Proof. destruct w. unfold with_trace. cbn. now rewrite app_nil_r. Qed.

Lemma set_projectID_same (w : World) : set_projectID (projectID w) w = w.
Proof. now destruct w. Qed.

(** Every way the organization picker can go. *)
Lemma organization_picker_cases (answer : option string) (w : World) :
  TerraformCloudFeature.organization_picker answer w
  = match apiClient w (trace w) listOrganizations with
    | Fail error =>
        (Normal (Rejected error),
         with_trace (fun t => t ++ [ApiCall listOrganizations]) w)
    | Ok orgs =>
        let shown :=
          ShowQuickPickStrings (map (fun element => attr_name (attributes element)) orgs) in
        match answer with
        | None =>
            (Normal (Resolved tt),
             with_trace (fun t => t ++ [ApiCall listOrganizations; shown]) w)
        | Some a =>
            (Normal (Resolved tt),
             set_ctx {| workspaceState := workspaceState (ctx w);
                        globalState := <[organization_key := a]> (globalState (ctx w)) |}
               (set_statusBar {| text := a; visible := true |}
                  (with_trace
                     (fun t => t ++ [ApiCall listOrganizations; shown;
                                     ShowInformationMessage
                                       ("Chose " +:+ a +:+ " organization")]) w)))
        end
    end.
Proof.
  unfold TerraformCloudFeature.organization_picker, async, await_api, emit,
    modify, mbind, M_bind, mret, M_ret.
  destruct (apiClient w (trace w) listOrganizations) as [orgs | error];
    [| reflexivity].
  destruct answer as [a |];
    unfold set_ctx, set_statusBar, with_trace, memento_update; cbn;
    rewrite push_each_map, <- !app_assoc; reflexivity.
Qed.

(** Every way the project filter command can go once an organization is
    chosen. *)
Lemma filterByProject_cases (pick : option QuickPickItem) (w : World) :
  let organization := memento_get (globalState (ctx w)) organization_key "" in
  organization <> "" ->
  WorkspaceTreeDataProvider.filterByProject pick w
  = match apiClient w (trace w) (projects_of organization) with
    | Fail error =>
        (Normal (Rejected error),
         with_trace (fun t => t ++ [ApiCall (projects_of organization)]) w)
    | Ok projects =>
        let shown := ShowQuickPickItems (map project_item projects) in
        match pick with
        | None =>
            (Normal (Resolved None),
             with_trace (fun t => t ++ [ApiCall (projects_of organization); shown]) w)
        | Some answer =>
            (Normal (Resolved None),
             with_trace
               (fun t => t ++ [ApiCall (projects_of organization); shown;
                               ShowInformationMessage "Chose [object Object] project";
                               FireWorkspaces; FireRuns])
               (set_projectID (default "" (item_detail answer)) w))
        end
    end.
Proof.
  intros organization Hne.
  unfold WorkspaceTreeDataProvider.filterByProject,
    WorkspaceTreeDataProvider.refresh, RunTreeDataProvider.refresh,
    globalState_organization, async, get, await_api, emit, modify,
    mbind, M_bind, mret, M_ret.
  cbn. fold organization.
  destruct (String.eqb_spec organization "") as [Heq | _]; [contradiction |].
  fold (projects_of organization).
  destruct (apiClient w (trace w) (projects_of organization)) as [projects | error];
    [| reflexivity].
  destruct pick as [answer |];
    unfold with_trace, set_projectID; cbn;
    rewrite push_each_map, <- !app_assoc; reflexivity.
Qed.

Lemma workspace_getChildren_unselected (w : World) :
  memento_get (globalState (ctx w)) organization_key "" = "" ->
  WorkspaceTreeDataProvider.getChildren w = (Normal (Immediate []), w).
Proof.
  intros Horg. unfold WorkspaceTreeDataProvider.getChildren,
    globalState_organization, mbind, M_bind, get, mret, M_ret.
  now rewrite Horg.
Qed.

Lemma run_getChildren_unselected (w : World) :
  workspace w = None ->
  RunTreeDataProvider.getChildren w = (Normal (Immediate []), w).
Proof.
  intros Hw. unfold RunTreeDataProvider.getChildren, mbind, M_bind, get, mret, M_ret.
  now rewrite Hw.
Qed.

(** X8. While no workspace is selected, which is the case right after
    construction, the run provider's [getChildren()] returns the empty
    array at once and leaves the world, remote-call trace included,
    unchanged. *)
Theorem X8_no_workspace_no_runs (w : World) :
  workspace w = None ->
  RunTreeDataProvider.getChildren w = (Normal (Immediate []), w).
Proof. apply run_getChildren_unselected. Qed.

Lemma X8_no_workspace_no_runs_witness :
  let w := TerraformCloudFeature.constructor
             (fun _ _ => Fail {| error_text := "offline" |})
             {| workspaceState := ∅;
                globalState := {[ organization_key := "acme" ]} |} in
  RunTreeDataProvider.getChildren w = (Normal (Immediate []), w).
Proof.
  intros w. apply (X8_no_workspace_no_runs w). reflexivity.
Defined.

(** X9. [getChildren()] of either provider is a query: it never throws
    synchronously, changes nothing but the trace, and adds to the trace at
    most one entry, which is a remote call. *)
Theorem X9_getChildren_is_read_only (w : World) :
  (exists r l,
     WorkspaceTreeDataProvider.getChildren w
     = (Normal r, with_trace (fun t => t ++ l) w) /\
     length l <= 1 /\ forallb is_call l = true) /\
  (exists r l,
     RunTreeDataProvider.getChildren w
     = (Normal r, with_trace (fun t => t ++ l) w) /\
     length l <= 1 /\ forallb is_call l = true).
Proof.
  split.
  - destruct (String.eqb_spec (memento_get (globalState (ctx w)) organization_key "") "")
      as [Heq | Hne].
    + exists (Immediate []), []. rewrite with_trace_nil.
      split; [now apply workspace_getChildren_unselected | split; [cbn; lia | reflexivity]].
    + rewrite (workspace_getChildren_spec w Hne).
      do 2 eexists. split; [reflexivity | split; [cbn; lia | reflexivity]].
  - destruct (workspace w) as [item |] eqn:Hw.
    + rewrite (run_getChildren_spec item w Hw).
      do 2 eexists. split; [reflexivity | split; [cbn; lia | reflexivity]].
    + exists (Immediate []), []. rewrite with_trace_nil.
      split; [now apply run_getChildren_unselected | split; [cbn; lia | reflexivity]].
Qed.

(** X10. With an organization chosen, a successful [listWorkspaces]
    answer is turned into one tree item per record, in the order of the
    answer, each carrying the record's name and id; an empty answer
    resolves to the empty array. *)
Theorem X10_workspace_items_follow_response
    (w : World) (data : list ApiRecord) :
  let organization := memento_get (globalState (ctx w)) organization_key "" in
  organization <> "" ->
  apiClient w (trace w) (workspaces_request organization w) = Ok data ->
  fst (WorkspaceTreeDataProvider.getChildren w)
  = Normal (Thenable (Resolved (map workspace_item data))).
Proof.
  intros organization Hne Hdata.
  rewrite (workspace_getChildren_spec w Hne). fold organization.
  now rewrite Hdata.
Qed.

Lemma X10_workspace_items_follow_response_witness :
  let api : list Effect -> Request -> ApiResult := fun _ _ =>
    Ok [ {| rec_id := "ws-1";
            attributes := {| attr_name := "web"; attr_message := "" |} |};
         {| rec_id := "ws-2";
            attributes := {| attr_name := "db"; attr_message := "" |} |} ] in
  let w := TerraformCloudFeature.constructor api
             {| workspaceState := ∅;
                globalState := {[ organization_key := "acme" ]} |} in
  fst (WorkspaceTreeDataProvider.getChildren w)
  = Normal (Thenable (Resolved [ {| ws_name := "web"; ws_id := "ws-1" |};
                                 {| ws_name := "db"; ws_id := "ws-2" |} ])).
Proof.
  intros api w.
  apply (X10_workspace_items_follow_response w
           [ {| rec_id := "ws-1";
                attributes := {| attr_name := "web"; attr_message := "" |} |};
             {| rec_id := "ws-2";
                attributes := {| attr_name := "db"; attr_message := "" |} |} ]);
    [discriminate | reflexivity].
Defined.

(** X11. When the organization quick pick is cancelled, or the
    organization list cannot be fetched, the picker changes nothing but
    the trace: stores, status bar, project filter and workspace selection
    stay as they were, and no information message is shown. *)
Theorem X11_cancelled_or_failed_pick_changes_nothing
    (answer : option string) (w : World) :
  answer = None \/ (exists error, apiClient w (trace w) listOrganizations = Fail error) ->
  exists l,
    snd (TerraformCloudFeature.organization_picker answer w)
    = with_trace (fun t => t ++ l) w /\
    forallb (fun e => match e with ShowInformationMessage _ => false | _ => true end) l
    = true.
Proof.
  intros Hcase. rewrite organization_picker_cases.
  destruct (apiClient w (trace w) listOrganizations) as [orgs | error].
  - destruct Hcase as [-> | [error Hfail]]; [| discriminate].
    eexists; split; reflexivity.
  - eexists; split; reflexivity.
Qed.

Lemma X11_cancelled_or_failed_pick_changes_nothing_witness :
  let w := TerraformCloudFeature.constructor
             (fun _ _ => Ok [])
             {| workspaceState := ∅; globalState := ∅ |} in
  exists l,
    snd (TerraformCloudFeature.organization_picker None w)
    = with_trace (fun t => t ++ l) w /\
    forallb (fun e => match e with ShowInformationMessage _ => false | _ => true end) l
    = true.
Proof.
  intros w.
  apply (X11_cancelled_or_failed_pick_changes_nothing None w).
  left. reflexivity.
Defined.

(** X12. Choosing an organization neither resets the project filter or
    the workspace selection nor fires a change event: the next
    [getChildren()] of the workspace provider asks for the workspaces of
    the new organization under the project filter that was set for the
    old one. *)
Theorem X12_project_filter_survives_organization_switch
    (w : World) (answer : string) (orgs : list ApiRecord) :
  apiClient w (trace w) listOrganizations = Ok orgs ->
  answer <> "" ->
  let w' := snd (TerraformCloudFeature.organization_picker (Some answer) w) in
  projectID w' = projectID w /\
  workspace w' = workspace w /\
  trace (snd ((TerraformCloudFeature.organization_picker (Some answer);;
               WorkspaceTreeDataProvider.getChildren) w))
  = trace w ++
    [ ApiCall listOrganizations;
      ShowQuickPickStrings (map (fun element => attr_name (attributes element)) orgs);
      ShowInformationMessage ("Chose " +:+ answer +:+ " organization");
      ApiCall (if negb (String.eqb (projectID w) "")
               then filtered answer (projectID w)
               else unfiltered answer) ].
Proof.
  intros Horgs Hne w'.
  pose proof (organization_picker_spec w answer orgs Horgs) as Hpick.
  subst w'. rewrite Hpick. cbn [snd projectID workspace].
  split; [reflexivity |]. split; [reflexivity |].
  rewrite (bind_snd _ _ w _ _ Hpick).
  rewrite workspace_getChildren_spec; cbn [ctx globalState];
    fold (memento_update (globalState (ctx w)) organization_key answer);
    rewrite memento_get_update; [| exact Hne].
  cbn [snd trace with_trace]. rewrite <- app_assoc. reflexivity.
Qed.

Lemma X12_project_filter_survives_organization_switch_witness :
  let orgs := [ {| rec_id := "org-2";
                   attributes := {| attr_name := "globex"; attr_message := "" |} |} ] in
  let w := set_projectID "prj-123"
             (TerraformCloudFeature.constructor (fun _ _ => Ok orgs)
                {| workspaceState := ∅;
                   globalState := {[ organization_key := "acme" ]} |}) in
  trace (snd ((TerraformCloudFeature.organization_picker (Some "globex");;
               WorkspaceTreeDataProvider.getChildren) w))
  = [ ApiCall listOrganizations;
      ShowQuickPickStrings ["globex"];
      ShowInformationMessage "Chose globex organization";
      ApiCall (filtered "globex" "prj-123") ].
Proof.
  intros orgs w.
  exact (proj2 (proj2
    (X12_project_filter_survives_organization_switch w "globex" orgs
       eq_refl ltac:(discriminate)))).
Defined.

(** X13. The picker never writes [workspaceState], the only store the
    constructor fills the status bar from: a feature constructed over the
    context a pick leaves behind starts with the same status bar as one
    constructed over the context before the pick, although within the
    session a completed pick shows the chosen name. *)
Theorem X13_status_bar_forgets_pick_on_restart
    (answer : option string) (w : World)
    (api : list Effect -> Request -> ApiResult) :
  let w' := snd (TerraformCloudFeature.organization_picker answer w) in
  organizationStatusBar (TerraformCloudFeature.constructor api (ctx w'))
  = organizationStatusBar (TerraformCloudFeature.constructor api (ctx w)) /\
  match answer, apiClient w (trace w) listOrganizations with
  | Some a, Ok _ => organizationStatusBar w' = {| text := a; visible := true |}
  | _, _ => organizationStatusBar w' = organizationStatusBar w
  end.
Proof.
  cbv zeta. rewrite organization_picker_cases.
  destruct (apiClient w (trace w) listOrganizations) as [orgs | error];
    destruct answer as [a |]; split; reflexivity.
Qed.

(** X14. A selection change in the workspace view selects the first
    selected item in the run provider and fires its change event; when the
    selection is empty the previous workspace stays selected.  The
    following [getChildren()] asks for the runs of that workspace. *)
Theorem X14_selection_cascades_to_runs
    (selection : list WorkspaceTreeItem) (w : World) :
  let chosen := match selection with
                | item :: _ => Some item
                | [] => workspace w
                end in
  workspace (snd (TerraformCloudFeature.onDidChangeSelection selection w)) = chosen /\
  trace (snd ((TerraformCloudFeature.onDidChangeSelection selection;;
               RunTreeDataProvider.getChildren) w))
  = trace w ++ FireRuns ::
      match chosen with
      | Some item => [ApiCall (runs_of item)]
      | None => []
      end.
Proof.
  cbv zeta. unfold TerraformCloudFeature.onDidChangeSelection.
  rewrite (bind_snd _ _ w tt _ (run_refresh_spec (head selection) w)).
  rewrite run_refresh_spec. cbn [snd].
  destruct selection as [| item rest]; cbn [head].
  - split; [reflexivity |].
    destruct (workspace w) as [item |] eqn:Hw.
    + rewrite (run_getChildren_spec item) by exact Hw.
      cbn. now rewrite <- app_assoc.
    + rewrite run_getChildren_unselected by exact Hw. reflexivity.
  - split; [reflexivity |].
    rewrite (run_getChildren_spec item) by reflexivity.
    cbn. now rewrite <- app_assoc.
Qed.

(** X15. The workspace refresh command keeps the project filter (unlike
    [refresh()] without an argument): it changes nothing but the run
    provider's selection, which becomes the item passed when there is
    one, and the trace, which gains the two change events; the request
    the workspace provider sends next is the one it would have sent
    before. *)
Theorem X15_workspace_refresh_keeps_filter
    (item : option WorkspaceTreeItem) (w : World) (organization : string) :
  let w' := snd (WorkspaceTreeDataProvider.workspaces_refresh item w) in
  w' = with_trace (fun t => t ++ [FireWorkspaces; FireRuns])
         match item with
         | Some i => set_workspace (Some i) w
         | None => w
         end /\
  projectID w' = projectID w /\
  workspaces_request organization w' = workspaces_request organization w.
Proof.
  cbv zeta.
  assert (H : snd (WorkspaceTreeDataProvider.workspaces_refresh item w)
              = with_trace (fun t => t ++ [FireWorkspaces; FireRuns])
                  match item with
                  | Some i => set_workspace (Some i) w
                  | None => w
                  end).
  { unfold WorkspaceTreeDataProvider.workspaces_refresh,
      WorkspaceTreeDataProvider.refresh, RunTreeDataProvider.refresh,
      get, emit, modify, mbind, M_bind, mret, M_ret.
    destruct w, item; unfold with_trace, set_workspace, set_projectID; cbn;
      now rewrite <- app_assoc. }
  rewrite H. split; [reflexivity |]. destruct item; split; reflexivity.
Qed.

(** X16. With an organization chosen, the list-all command followed by
    [getChildren()] asks for the organization's workspaces without a
    project filter, whatever filter was set before. *)
Theorem X16_list_all_fetches_unfiltered (w : World) :
  let organization := memento_get (globalState (ctx w)) organization_key "" in
  organization <> "" ->
  trace (snd ((WorkspaceTreeDataProvider.listAll;;
               WorkspaceTreeDataProvider.getChildren) w))
  = trace w ++ [FireWorkspaces; FireRuns; ApiCall (unfiltered organization)].
Proof.
  intros organization Hne.
  assert (Hall : WorkspaceTreeDataProvider.listAll w
                 = (Normal tt,
                    with_trace (fun t => t ++ [FireWorkspaces; FireRuns])
                               (set_projectID "" w))).
  { unfold WorkspaceTreeDataProvider.listAll, WorkspaceTreeDataProvider.refresh,
      RunTreeDataProvider.refresh, emit, modify, mbind, M_bind, mret, M_ret.
    unfold with_trace, set_projectID; cbn. now rewrite <- app_assoc. }
  rewrite (bind_snd _ _ w tt _ Hall).
  rewrite workspace_getChildren_spec by exact Hne.
  cbn. now rewrite <- app_assoc.
Qed.

Lemma X16_list_all_fetches_unfiltered_witness :
  let w := set_projectID "prj-123"
             (TerraformCloudFeature.constructor (fun _ _ => Ok [])
                {| workspaceState := ∅;
                   globalState := {[ organization_key := "acme" ]} |}) in
  trace (snd ((WorkspaceTreeDataProvider.listAll;;
               WorkspaceTreeDataProvider.getChildren) w))
  = trace w ++ [FireWorkspaces; FireRuns; ApiCall (unfiltered "acme")].
Proof.
  intros w. apply (X16_list_all_fetches_unfiltered w). discriminate.
Defined.

(** X17. With an organization chosen and the project list fetched,
    picking the quick pick item built for a project sets the project
    filter to that project's id, fires the workspace change event and then
    the run change event, and leaves the stores and the selected workspace
    alone; the command's promise resolves to [undefined]. *)
Theorem X17_picking_a_project_sets_the_filter
    (w : World) (projects : list ApiRecord) (element : ApiRecord) :
  let organization := memento_get (globalState (ctx w)) organization_key "" in
  organization <> "" ->
  apiClient w (trace w) (projects_of organization) = Ok projects ->
  WorkspaceTreeDataProvider.filterByProject (Some (project_item element)) w
  = (Normal (Resolved None),
     with_trace
       (fun t => t ++ [ ApiCall (projects_of organization);
                        ShowQuickPickItems (map project_item projects);
                        ShowInformationMessage "Chose [object Object] project";
                        FireWorkspaces; FireRuns ])
       (set_projectID (rec_id element) w)).
Proof.
  intros organization Hne Hprojects.
  rewrite (filterByProject_cases _ w Hne). fold organization.
  now rewrite Hprojects.
Qed.

Lemma X17_picking_a_project_sets_the_filter_witness :
  let element := {| rec_id := "prj-123";
                    attributes := {| attr_name := "core"; attr_message := "" |} |} in
  let w := TerraformCloudFeature.constructor (fun _ _ => Ok [element])
             {| workspaceState := ∅;
                globalState := {[ organization_key := "acme" ]} |} in
  WorkspaceTreeDataProvider.filterByProject (Some (project_item element)) w
  = (Normal (Resolved None),
     with_trace
       (fun t => t ++ [ ApiCall (projects_of "acme");
                        ShowQuickPickItems [project_item element];
                        ShowInformationMessage "Chose [object Object] project";
                        FireWorkspaces; FireRuns ])
       (set_projectID "prj-123" w)).
Proof.
  intros element w.
  apply (X17_picking_a_project_sets_the_filter w [element] element);
    [discriminate | reflexivity].
Defined.

(** X18. Without an organization the project filter command returns the
    empty array at once: no remote call, no quick pick, no change event,
    the world unchanged, whatever the user would have picked. *)
Theorem X18_filter_command_needs_an_organization
    (pick : option QuickPickItem) (w : World) :
  memento_get (globalState (ctx w)) organization_key "" = "" ->
  WorkspaceTreeDataProvider.filterByProject pick w
  = (Normal (Resolved (Some [])), w).
Proof.
  intros Horg.
  unfold WorkspaceTreeDataProvider.filterByProject, globalState_organization,
    async, get, mbind, M_bind, mret, M_ret.
  now rewrite Horg.
Qed.

Lemma X18_filter_command_needs_an_organization_witness :
  let w := TerraformCloudFeature.constructor (fun _ _ => Ok [])
             {| workspaceState := {[ organization_key := "acme" ]};
                globalState := ∅ |} in
  WorkspaceTreeDataProvider.filterByProject None w
  = (Normal (Resolved (Some [])), w).
Proof.
  intros w. apply (X18_filter_command_needs_an_organization None w). reflexivity.
Defined.

(** X19. When the project quick pick is cancelled, or the project list
    cannot be fetched (in which case the command's promise rejects), the
    project filter command changes nothing but the trace and fires no
    change event. *)
Theorem X19_cancelled_or_failed_filter_changes_nothing
    (pick : option QuickPickItem) (w : World) :
  let organization := memento_get (globalState (ctx w)) organization_key "" in
  pick = None \/
  (exists error, apiClient w (trace w) (projects_of organization) = Fail error) ->
  exists l,
    snd (WorkspaceTreeDataProvider.filterByProject pick w)
    = with_trace (fun t => t ++ l) w /\
    forallb (fun e => negb (is_fire e)) l = true.
Proof.
  intros organization Hcase.
  destruct (String.eqb_spec organization "") as [Heq | Hne].
  - exists []. rewrite with_trace_nil.
    unfold WorkspaceTreeDataProvider.filterByProject, globalState_organization,
      async, get, mbind, M_bind, mret, M_ret.
    fold organization. rewrite Heq. split; reflexivity.
  - rewrite (filterByProject_cases _ w Hne). fold organization.
    destruct (apiClient w (trace w) (projects_of organization)) as [projects | error].
    + destruct Hcase as [-> | [error Hfail]]; [| discriminate].
      eexists; split; reflexivity.
    + eexists; split; reflexivity.
Qed.

Lemma X19_cancelled_or_failed_filter_changes_nothing_witness :
  let w := set_projectID "prj-123"
             (TerraformCloudFeature.constructor
                (fun _ _ => Fail {| error_text := "offline" |})
                {| workspaceState := ∅;
                   globalState := {[ organization_key := "acme" ]} |}) in
  exists l,
    snd (WorkspaceTreeDataProvider.filterByProject
           (Some {| label := "core"; item_detail := Some "prj-9" |}) w)
    = with_trace (fun t => t ++ l) w /\
    forallb (fun e => negb (is_fire e)) l = true.
Proof.
  intros w.
  apply (X19_cancelled_or_failed_filter_changes_nothing _ w).
  right. eexists. reflexivity.
Defined.

Lemma append_cancel_l (s a b : string) : s +:+ a = s +:+ b -> a = b.
Proof.
  induction s as [| c s IH]; cbn; intros H; [exact H |].
  apply IH. now injection H.
Qed.

(** X20. Within one organization and workspace, two run records get the
    same URL exactly when they have the same id. *)
Theorem X20_run_url_determines_run
    (organization : string) (item : WorkspaceTreeItem) (r1 r2 : ApiRecord) :
  RunTreeDataProvider.derive_url organization item r1
  = RunTreeDataProvider.derive_url organization item r2
  <-> rec_id r1 = rec_id r2.
Proof.
  unfold RunTreeDataProvider.derive_url. split.
  - intros H. repeat apply append_cancel_l in H. exact H.
  - now intros ->.
Qed.

(** X21. Two completed picks in a row leave the stores as the second pick
    alone would have: the organization key of [globalState] holds the
    second name, [workspaceState] is untouched, and the status bar shows
    the second name. *)
Theorem X21_last_pick_wins
    (w : World) (a b : string) (orgs1 orgs2 : list ApiRecord) :
  apiClient w (trace w) listOrganizations = Ok orgs1 ->
  apiClient w (trace (snd (TerraformCloudFeature.organization_picker (Some a) w)))
            listOrganizations = Ok orgs2 ->
  let w2 := snd ((TerraformCloudFeature.organization_picker (Some a);;
                  TerraformCloudFeature.organization_picker (Some b)) w) in
  ctx w2 = ctx (snd (TerraformCloudFeature.organization_picker (Some b) w)) /\
  globalState (ctx w2) !! organization_key = Some b /\
  organizationStatusBar w2 = {| text := b; visible := true |}.
Proof.
  intros H1 H2 w2. subst w2.
  pose proof (organization_picker_spec w a orgs1 H1) as Hp1.
  rewrite Hp1 in H2. cbn [snd trace] in H2.
  rewrite (bind_snd _ _ w _ _ Hp1).
  rewrite (organization_picker_spec _ b orgs2) by exact H2.
  rewrite (organization_picker_spec w b orgs1 H1).
  cbn [snd ctx globalState workspaceState organizationStatusBar].
  rewrite insert_insert_eq. repeat split. apply lookup_insert_eq.
Qed.

Lemma X21_last_pick_wins_witness :
  let w := TerraformCloudFeature.constructor (fun _ _ => Ok [])
             {| workspaceState := ∅; globalState := ∅ |} in
  let w2 := snd ((TerraformCloudFeature.organization_picker (Some "acme");;
                  TerraformCloudFeature.organization_picker (Some "globex")) w) in
  ctx w2 = ctx (snd (TerraformCloudFeature.organization_picker (Some "globex") w)) /\
  globalState (ctx w2) !! organization_key = Some "globex" /\
  organizationStatusBar w2 = {| text := "globex"; visible := true |}.
Proof.
  intros w.
  apply (X21_last_pick_wins w "acme" "globex" [] []); reflexivity.
Defined.

End Commands.
